(** * Processed agent data service (main.py)

    A FastAPI application that stores processed road telemetry and pushes
    every newly created record to the WebSocket subscribers of its agent.
    This file embeds [main.py] and states the properties of its five
    endpoints.

    Layout of the embedding:
    - Python values, the five pydantic model classes and their [.dict()];
    - the functions main.py calls in libraries ([datetime.fromisoformat],
      [json.dumps], pydantic's scalar validators) as the class [Library];
    - the process state ([World]): the record store behind [SessionLocal],
      the module-level [subscriptions] dict, the heap of the set objects it
      points to, and the trace of commits and WebSocket sends;
    - what a request meets outside the process ([Env]): the clock, whether
      the database opens a session and accepts a commit, whether a
      connection takes a message.  The database is the table under its
      primary key; what else SQLAlchemy makes of the calls is not part of
      the model;
    - the endpoints as computations in a state-and-exception monad.

    The ingest endpoint is [create_with build], where [build] is the
    constructor called on line 109; main.py's own endpoint is
    [create_processed_agent_data], with the model class for [build].  The
    model class raises on the keywords of line 109 whatever the request
    ([create_always_raises]), so what the endpoint does from the commit on
    is stated for every [build], and shown on runs with [flat_record], a
    constructor that builds the record. *)

From Stdlib Require Import ZArith String List Floats Ascii DecimalString.
From stdpp Require Import base option gmap sets list strings.

Local Open Scope Z_scope.
Local Open Scope string_scope.
Local Open Scope list_scope.
Local Set Warnings "-register-all".

(** ** Python values *)

(** A [datetime.datetime] object; [utcoffset] is [None] for a naive one. *)
Record datetime := mk_datetime {
  year : Z; month : Z; day : Z;
  hour : Z; minute : Z; second : Z; microsecond : Z;
  utcoffset : option Z
}.

(** The Python objects that flow through main.py: JSON request bodies, the
    results of [.dict()] and keyword arguments.  A dict is an association
    list in insertion order, the order [.items()] iterates in. *)
Inductive PyValue :=
| PyNone
| PyBool (b : bool)
| PyInt (n : Z)
| PyFloat (f : float)
| PyStr (s : string)
| PyDatetime (t : datetime)
| PyList (l : list PyValue)
| PyDict (d : list (string * PyValue)).

Abbreviation Dict := (list (string * PyValue)).

(** [d.get(k)] *)
Fixpoint dict_get (d : Dict) (k : string) : option PyValue :=
  match d with
  | [] => None
  | (k', v) :: d' => if String.eqb k' k then Some v else dict_get d' k
  end.

(** A WebSocket connection, by identity. *)
Definition WebSocket := nat.

(** ** Exceptions and results *)

(** One entry of a pydantic [ValidationError]. *)
Inductive FieldError :=
| Missing (name : string)
| Invalid (name : string).

Inductive Exn :=
| ValidationError (errors : list FieldError)
    (* pydantic.ValidationError raised by a model constructor *)
| RequestValidationError (errors : list FieldError)
    (* FastAPI's answer to a body that does not validate (422) *)
| TypeError (msg : string)
| ValueError (msg : string)
| RuntimeError (msg : string)
| HTTPException (status_code : Z) (detail : string)
| StorageError
    (* an SQLAlchemy error: the session cannot be opened or the commit fails *)
| SendError (ws : WebSocket)
    (* [send_text] raised on this connection *)
| IllTyped (name : string)
    (* of the model only: [setattr] was given a value of another type than
       the field's, which the typed record cannot hold *)
| OutOfFuel.
    (* of the model only: the bound of [fanout] was reached;
       [fanout_total] shows it never is *)

Inductive Res (A : Type) :=
| Ok (a : A)
| Raise (e : Exn).
Arguments Ok {A} a.
Arguments Raise {A} e.

Definition res_bind {A B} (r : Res A) (k : A → Res B) : Res B :=
  match r with
  | Ok a => k a
  | Raise e => Raise e
  end.

(** ** The model classes (main.py lines 52-96) *)

Record ProcessedAgentDataInDB := mk_ProcessedAgentDataInDB {
  db_id : Z;
  db_road_state : string;
  db_user_id : Z;
  db_x : float;
  db_y : float;
  db_z : float;
  db_latitude : float;
  db_longitude : float;
  db_timestamp : datetime
}.

Record AccelerometerData := mk_AccelerometerData {
  x : float; y : float; z : float
}.

Record GpsData := mk_GpsData {
  latitude : float; longitude : float
}.

Record AgentData := mk_AgentData {
  user_id : Z;
  accelerometer : AccelerometerData;
  gps : GpsData;
  timestamp : datetime
}.

Record ProcessedAgentData := mk_ProcessedAgentData {
  road_state : string;
  agent_data : AgentData
}.

(** The field names of [ProcessedAgentDataInDB], in declaration order. *)
Definition ProcessedAgentDataInDB_fields : list string :=
  ["id"; "road_state"; "user_id"; "x"; "y"; "z";
   "latitude"; "longitude"; "timestamp"].

(** [.dict()]: nested models become nested dicts, fields keep their order. *)
Definition AccelerometerData_dict (a : AccelerometerData) : Dict :=
  [("x", PyFloat (x a)); ("y", PyFloat (y a)); ("z", PyFloat (z a))].

Definition GpsData_dict (g : GpsData) : Dict :=
  [("latitude", PyFloat (latitude g)); ("longitude", PyFloat (longitude g))].

Definition AgentData_dict (a : AgentData) : Dict :=
  [("user_id", PyInt (user_id a));
   ("accelerometer", PyDict (AccelerometerData_dict (accelerometer a)));
   ("gps", PyDict (GpsData_dict (gps a)));
   ("timestamp", PyDatetime (timestamp a))].

Definition ProcessedAgentData_dict (d : ProcessedAgentData) : Dict :=
  [("road_state", PyStr (road_state d));
   ("agent_data", PyDict (AgentData_dict (agent_data d)))].

Definition ProcessedAgentDataInDB_dict (r : ProcessedAgentDataInDB) : Dict :=
  [("id", PyInt (db_id r));
   ("road_state", PyStr (db_road_state r));
   ("user_id", PyInt (db_user_id r));
   ("x", PyFloat (db_x r));
   ("y", PyFloat (db_y r));
   ("z", PyFloat (db_z r));
   ("latitude", PyFloat (db_latitude r));
   ("longitude", PyFloat (db_longitude r));
   ("timestamp", PyDatetime (db_timestamp r))].

(** A call with a starred dict [star] and explicit keywords: Python
    raises [TypeError] when a keyword is given twice, else the callee sees
    the keywords in call order. *)
Definition call_kwargs (star explicit : Dict) : Res Dict :=
  if existsb (fun kv => bool_decide (is_Some (dict_get star (fst kv)))) explicit
  then Raise (TypeError "got multiple values for keyword argument")
  else Ok (star ++ explicit).

(** ** Decorated methods

    What a class body binds a method name to: the function as written, or
    what a decorator made of it.  Decorators apply from the bottom up, so
    the one written first is the outermost. *)
Inductive ValidatorMode := Before | After.

Inductive ClassAttr :=
| Function (f : PyValue → Res PyValue)
| Classmethod (inner : ClassAttr)
    (* [classmethod(inner)] *)
| FieldValidator (field : string) (mode : ValidatorMode) (inner : ClassAttr).
    (* what [field_validator(field, mode=mode)(inner)] returns: pydantic's
       descriptor proxy around [inner] *)

Fixpoint underlying (a : ClassAttr) : PyValue → Res PyValue :=
  match a with
  | Function f => f
  | Classmethod inner => underlying inner
  | FieldValidator _ _ inner => underlying inner
  end.

(** pydantic collects the validators of a model class from the attributes
    of the class that are its descriptor proxies; an attribute of another
    kind, a [classmethod] object around a proxy included, is none. *)
Definition before_validators (attrs : list ClassAttr) (field : string)
    : list (PyValue → Res PyValue) :=
  omap (fun a =>
          match a with
          | FieldValidator fld Before inner =>
              if String.eqb fld field then Some (underlying inner) else None
          | _ => None
          end) attrs.

(** The [mode="before"] validators of a field run on the raw value, each
    on the result of the one before. *)
Fixpoint run_before (validators : list (PyValue → Res PyValue))
    (value : PyValue) : Res PyValue :=
  match validators with
  | [] => Ok value
  | f :: rest => res_bind (f value) (run_before rest)
  end.

(** ** Library functions

    What main.py calls outside its own text.  [None] stands for the
    exception the function raises ([ValueError] for [fromisoformat],
    [TypeError] for [json.dumps], a validation error for the validators).
    The laws: pydantic accepts an instance of a field's own type as it
    is, and an integer for a [datetime] field as Unix time.  The
    serializer is left open: Python's [json.dumps] raises
    [TypeError] on a [datetime], which every record holds, and what is
    proved of the fan-out below is proved for every serializer, those that
    return included. *)
Class Library := {
  fromisoformat : string → option datetime;
  json_dumps : PyValue → option string;
  validate_int : PyValue → option Z;
  validate_float : PyValue → option float;
  validate_str : PyValue → option string;
  validate_datetime : PyValue → option datetime;
  validate_int_instance : ∀ n, validate_int (PyInt n) = Some n;
  validate_float_instance : ∀ f, validate_float (PyFloat f) = Some f;
  validate_str_instance : ∀ s, validate_str (PyStr s) = Some s;
  validate_datetime_instance : ∀ t, validate_datetime (PyDatetime t) = Some t;
  validate_datetime_unix :
    ∀ n : Z, (0 ≤ n ≤ 20000000000)%Z → is_Some (validate_datetime (PyInt n))
}.

Section Models.
Context `{Library}.

(** Validation of one field of a model from the keywords given. *)
Definition field {A} (validate : PyValue → option A) (kw : Dict)
    (name : string) : FieldError + A :=
  match dict_get kw name with
  | None => inl (Missing name)
  | Some v =>
      match validate v with
      | None => inl (Invalid name)
      | Some a => inr a
      end
  end.

Definition errs {A} (f : FieldError + A) : list FieldError :=
  match f with
  | inl e => [e]
  | inr _ => []
  end.

(** The constructor of [ProcessedAgentDataInDB] called with the keywords
    [kw]: no field has a default, so each must be among the keywords;
    keywords that name no field are ignored; the [ValidationError] lists
    every field that failed. *)
Definition ProcessedAgentDataInDB_init (kw : Dict)
    : Res ProcessedAgentDataInDB :=
  let f_id := field validate_int kw "id" in
  let f_road_state := field validate_str kw "road_state" in
  let f_user_id := field validate_int kw "user_id" in
  let f_x := field validate_float kw "x" in
  let f_y := field validate_float kw "y" in
  let f_z := field validate_float kw "z" in
  let f_latitude := field validate_float kw "latitude" in
  let f_longitude := field validate_float kw "longitude" in
  let f_timestamp := field validate_datetime kw "timestamp" in
  match f_id, f_road_state, f_user_id, f_x, f_y, f_z,
        f_latitude, f_longitude, f_timestamp with
  | inr i, inr rs, inr u, inr vx, inr vy, inr vz, inr la, inr lo, inr ts =>
      Ok (mk_ProcessedAgentDataInDB i rs u vx vy vz la lo ts)
  | _, _, _, _, _, _, _, _, _ =>
      Raise (ValidationError
               (errs f_id ++ errs f_road_state ++ errs f_user_id ++
                errs f_x ++ errs f_y ++ errs f_z ++
                errs f_latitude ++ errs f_longitude ++ errs f_timestamp))
  end.

(** [setattr(obj, name, value)] on a [ProcessedAgentDataInDB]: pydantic
    raises [ValueError] for a name that is not a field of the model and
    stores the value unvalidated otherwise.  The record being typed, a
    value of another type than the field's has no place in it; that case
    is [IllTyped] here, and [update_never_ill_typed] shows the update
    endpoint never reaches it. *)
Definition setattr (obj : ProcessedAgentDataInDB) (name : string)
    (value : PyValue) : Res ProcessedAgentDataInDB :=
  if bool_decide (name ∈ ProcessedAgentDataInDB_fields) then
    match name, value with
    | "id", PyInt n =>
        Ok (mk_ProcessedAgentDataInDB n (db_road_state obj) (db_user_id obj)
              (db_x obj) (db_y obj) (db_z obj) (db_latitude obj)
              (db_longitude obj) (db_timestamp obj))
    | "road_state", PyStr s =>
        Ok (mk_ProcessedAgentDataInDB (db_id obj) s (db_user_id obj)
              (db_x obj) (db_y obj) (db_z obj) (db_latitude obj)
              (db_longitude obj) (db_timestamp obj))
    | "user_id", PyInt n =>
        Ok (mk_ProcessedAgentDataInDB (db_id obj) (db_road_state obj) n
              (db_x obj) (db_y obj) (db_z obj) (db_latitude obj)
              (db_longitude obj) (db_timestamp obj))
    | "x", PyFloat f =>
        Ok (mk_ProcessedAgentDataInDB (db_id obj) (db_road_state obj)
              (db_user_id obj) f (db_y obj) (db_z obj) (db_latitude obj)
              (db_longitude obj) (db_timestamp obj))
    | "y", PyFloat f =>
        Ok (mk_ProcessedAgentDataInDB (db_id obj) (db_road_state obj)
              (db_user_id obj) (db_x obj) f (db_z obj) (db_latitude obj)
              (db_longitude obj) (db_timestamp obj))
    | "z", PyFloat f =>
        Ok (mk_ProcessedAgentDataInDB (db_id obj) (db_road_state obj)
              (db_user_id obj) (db_x obj) (db_y obj) f (db_latitude obj)
              (db_longitude obj) (db_timestamp obj))
    | "latitude", PyFloat f =>
        Ok (mk_ProcessedAgentDataInDB (db_id obj) (db_road_state obj)
              (db_user_id obj) (db_x obj) (db_y obj) (db_z obj) f
              (db_longitude obj) (db_timestamp obj))
    | "longitude", PyFloat f =>
        Ok (mk_ProcessedAgentDataInDB (db_id obj) (db_road_state obj)
              (db_user_id obj) (db_x obj) (db_y obj) (db_z obj)
              (db_latitude obj) f (db_timestamp obj))
    | "timestamp", PyDatetime t =>
        Ok (mk_ProcessedAgentDataInDB (db_id obj) (db_road_state obj)
              (db_user_id obj) (db_x obj) (db_y obj) (db_z obj)
              (db_latitude obj) (db_longitude obj) t)
    | _, _ => Raise (IllTyped name)
    end
  else
    Raise (ValueError "ProcessedAgentDataInDB object has no field").

(** The function [check_timestamp] (lines 84-92): a [datetime] passes;
    anything else goes to [datetime.fromisoformat], whose [TypeError] (not
    a string) and [ValueError] (not ISO 8601) both become a
    [ValueError]. *)
Definition check_timestamp (value : PyValue) : Res PyValue :=
  match value with
  | PyDatetime _ => Ok value
  | PyStr s =>
      match fromisoformat s with
      | Some t => Ok (PyDatetime t)
      | None => Raise (ValueError "Invalid timestamp format. Expected ISO 8601 format (YYYY-MM-DDTHH:MM:SSZ).")
      end
  | _ => Raise (ValueError "Invalid timestamp format. Expected ISO 8601 format (YYYY-MM-DDTHH:MM:SSZ).")
  end.

(** The methods of the class [AgentData]: lines 82-84 write [@classmethod]
    above [@field_validator("timestamp", mode="before")], so the class
    has a [classmethod] object around the validator's proxy. *)
Definition AgentData_attrs : list ClassAttr :=
  [Classmethod (FieldValidator "timestamp" Before (Function check_timestamp))].

(** The validation of the [timestamp] field of [AgentData]: the before
    validators the class has for it, then the [datetime] validation. *)
Definition validate_timestamp (value : PyValue) : option datetime :=
  match run_before (before_validators AgentData_attrs "timestamp") value with
  | Ok v => validate_datetime v
  | Raise _ => None
  end.

(** A nested model is validated from a dict. *)
Definition validate_model {A} (validate : Dict → list FieldError + A)
    (v : PyValue) : option A :=
  match v with
  | PyDict d =>
      match validate d with
      | inr a => Some a
      | inl _ => None
      end
  | _ => None
  end.

Definition AccelerometerData_validate (d : Dict)
    : list FieldError + AccelerometerData :=
  let f_x := field validate_float d "x" in
  let f_y := field validate_float d "y" in
  let f_z := field validate_float d "z" in
  match f_x, f_y, f_z with
  | inr vx, inr vy, inr vz => inr (mk_AccelerometerData vx vy vz)
  | _, _, _ => inl (errs f_x ++ errs f_y ++ errs f_z)
  end.

Definition GpsData_validate (d : Dict) : list FieldError + GpsData :=
  let f_latitude := field validate_float d "latitude" in
  let f_longitude := field validate_float d "longitude" in
  match f_latitude, f_longitude with
  | inr la, inr lo => inr (mk_GpsData la lo)
  | _, _ => inl (errs f_latitude ++ errs f_longitude)
  end.

Definition AgentData_validate (d : Dict) : list FieldError + AgentData :=
  let f_user_id := field validate_int d "user_id" in
  let f_accelerometer :=
    field (validate_model AccelerometerData_validate) d "accelerometer" in
  let f_gps := field (validate_model GpsData_validate) d "gps" in
  let f_timestamp := field validate_timestamp d "timestamp" in
  match f_user_id, f_accelerometer, f_gps, f_timestamp with
  | inr u, inr a, inr g, inr t => inr (mk_AgentData u a g t)
  | _, _, _, _ =>
      inl (errs f_user_id ++ errs f_accelerometer ++ errs f_gps ++
           errs f_timestamp)
  end.

Definition ProcessedAgentData_validate (d : Dict)
    : list FieldError + ProcessedAgentData :=
  let f_road_state := field validate_str d "road_state" in
  let f_agent_data :=
    field (validate_model AgentData_validate) d "agent_data" in
  match f_road_state, f_agent_data with
  | inr rs, inr a => inr (mk_ProcessedAgentData rs a)
  | _, _ => inl (errs f_road_state ++ errs f_agent_data)
  end.

(** FastAPI validates the JSON body against the parameter's model before
    it calls the endpoint function. *)
Definition parse_body (body : PyValue) : Res ProcessedAgentData :=
  match body with
  | PyDict d =>
      match ProcessedAgentData_validate d with
      | inr data => Ok data
      | inl errors => Raise (RequestValidationError errors)
      end
  | _ => Raise (RequestValidationError [Invalid "body"])
  end.

End Models.

(** ** The process state *)

(** A pending change of a session, written by [commit]. *)
Inductive DbOp :=
| Insert (r : ProcessedAgentDataInDB)   (* session.add(r) *)
| Change (r : ProcessedAgentDataInDB)   (* a loaded row whose attributes were set *)
| Remove (r : ProcessedAgentDataInDB).  (* session.delete(r) *)

(** What the outside sees of a run. *)
Inductive Event :=
| Committed (ops : list DbOp)
| Sent (ws : WebSocket) (message : string)
| SendFailed (ws : WebSocket) (message : string).

(** A send attempt, successful or not. *)
Definition is_dispatch (e : Event) : bool :=
  match e with
  | Committed _ => false
  | Sent _ _ | SendFailed _ _ => true
  end.

(** The address of a [set] object. *)
Definition loc := positive.

(** - [store]: the table [processed_agent_data], keyed by its primary key;
    - [subscriptions]: the module-level dict (line 100); its values are
      references to set objects;
    - [heap]: the set objects; [elements] is the order a set iterates in;
    - [trace]: the events so far, oldest first. *)
Record World := mk_World {
  store : gmap Z ProcessedAgentDataInDB;
  subscriptions : gmap Z loc;
  heap : gmap loc (gset WebSocket);
  trace : list Event
}.

(** The set object at an address (an address that was never allocated holds
    no object; no reference to one exists). *)
Definition deref (h : gmap loc (gset WebSocket)) (l : loc) : gset WebSocket :=
  default ∅ (h !! l).

(** What each request meets outside the process: the clock, the database
    and the connections. *)
Record Env := mk_Env {
  utcnow : datetime;
  session_opens : bool;
  commit_succeeds : bool;
  send_succeeds : WebSocket → bool
}.

(** ** The monad of endpoint bodies: state and exceptions.  An exception
    keeps the state reached so far. *)
Definition M (A : Type) : Type := World → Res A * World.

Definition ret {A} (a : A) : M A := fun w => (Ok a, w).

Definition raise {A} (e : Exn) : M A := fun w => (Raise e, w).

Definition bind {A B} (m : M A) (k : A → M B) : M B :=
  fun w =>
    match m w with
    | (Ok a, w') => k a w'
    | (Raise e, w') => (Raise e, w')
    end.

Definition lift {A} (r : Res A) : M A := fun w => (r, w).

(** The world with more events on its trace. *)
Definition log (w : World) (events : list Event) : World :=
  mk_World (store w) (subscriptions w) (heap w) (trace w ++ events).

Definition emit (e : Event) : M unit :=
  fun w => (Ok tt, log w [e]).

Declare Scope py_scope.
Delimit Scope py_scope with py.
Notation "x <- m ;; k" := (bind m (fun x => k))
  (at level 100, m at next level, right associativity) : py_scope.
Notation "m ;;; k" := (bind m (fun _ => k))
  (at level 100, right associativity) : py_scope.
Local Open Scope py_scope.

(** The events a computation adds to the trace of [w]. *)
Definition emitted {A} (m : M A) (w : World) : list Event :=
  drop (length (trace w)) (trace (snd (m w))).

(** ** The session *)

(** [SessionLocal()] entered by [with] or [async with]: whether the
    session opens is the environment's; it starts with nothing pending,
    and what is pending when the block is left without a commit is
    dropped. *)
Definition SessionLocal (env : Env) : M (list DbOp) :=
  if session_opens env then ret [] else raise StorageError.

(** [session.add(r)], [session.delete(r)], and a loaded row whose
    attributes were set: each is pending until the commit. *)
Definition session_add (session : list DbOp) (r : ProcessedAgentDataInDB)
    : list DbOp := session ++ [Insert r].

Definition session_delete (session : list DbOp) (r : ProcessedAgentDataInDB)
    : list DbOp := session ++ [Remove r].

Definition session_changed (session : list DbOp) (r : ProcessedAgentDataInDB)
    : list DbOp := session ++ [Change r].

(** [session.query(ProcessedAgentDataInDB).filter(id == k).first()] *)
Definition query_first (k : Z) : M (option ProcessedAgentDataInDB) :=
  fun w => (Ok (store w !! k), w).

(** [session.query(ProcessedAgentDataInDB).all()] *)
Definition query_all : M (list ProcessedAgentDataInDB) :=
  fun w => (Ok (snd <$> map_to_list (store w)), w).

(** One pending change on the table; an insert under a key that is taken
    violates the primary key. *)
Definition apply_op (op : DbOp) (t : gmap Z ProcessedAgentDataInDB)
    : option (gmap Z ProcessedAgentDataInDB) :=
  match op with
  | Insert r =>
      match t !! db_id r with
      | None => Some (<[db_id r := r]> t)
      | Some _ => None
      end
  | Change r => Some (<[db_id r := r]> t)
  | Remove r => Some (delete (db_id r) t)
  end.

Fixpoint apply_ops (ops : list DbOp) (t : gmap Z ProcessedAgentDataInDB)
    : option (gmap Z ProcessedAgentDataInDB) :=
  match ops with
  | [] => Some t
  | op :: ops' =>
      match apply_op op t with
      | Some t' => apply_ops ops' t'
      | None => None
      end
  end.

(** [session.commit()]: all pending changes or none. *)
Definition session_commit (env : Env) (pending : list DbOp) : M unit :=
  fun w =>
    if commit_succeeds env then
      match apply_ops pending (store w) with
      | Some t =>
          (Ok tt, mk_World t (subscriptions w) (heap w)
                    (trace w ++ [Committed pending]))
      | None => (Raise StorageError, w)
      end
    else (Raise StorageError, w).

(** ** Iteration over a set object *)

(** The iterator [iter(s)] keeps a reference to [s], the size [s] had when
    the iterator was made and its position. *)
Record SetIter := mk_SetIter {
  it_loc : loc;
  it_used : nat;
  it_pos : nat
}.

Definition set_iter (l : loc) : M SetIter :=
  fun w => (Ok (mk_SetIter l (size (deref (heap w) l)) 0), w).

(** [next(it)]: [RuntimeError] when the set no longer has the size it had
    when the iterator was made, [None] for [StopIteration]. *)
Definition set_next (it : SetIter) : M (option (WebSocket * SetIter)) :=
  fun w =>
    let s := deref (heap w) (it_loc it) in
    if bool_decide (size s = it_used it) then
      match elements s !! it_pos it with
      | Some ws => (Ok (Some (ws, mk_SetIter (it_loc it) (it_used it) (S (it_pos it)))), w)
      | None => (Ok None, w)
      end
    else (Raise (RuntimeError "Set changed size during iteration"), w).

(** [await websocket.send_text(message)] *)
Definition send_text (env : Env) (ws : WebSocket) (message : string) : M unit :=
  if send_succeeds env ws then emit (Sent ws message)
  else (emit (SendFailed ws message) ;;; raise (SendError ws)).

(** The loop of lines 115-116, from an iterator on. *)
Fixpoint fanout (fuel : nat) (env : Env) (message : string) (it : SetIter)
    : M unit :=
  match fuel with
  | O => raise OutOfFuel
  | S fuel' =>
      o <- set_next it ;;
      match o with
      | None => ret tt
      | Some (websocket, it') =>
          send_text env websocket message ;;;
          fanout fuel' env message it'
      end
  end.

(** ** The endpoints (main.py lines 105-163) *)

Section Endpoints.
Context `{Library}.

(** [json.dumps(obj)] *)
Definition dumps (obj : PyValue) : Res string :=
  match json_dumps obj with
  | Some s => Ok s
  | None => Raise (TypeError "Object is not JSON serializable")
  end.

(** The dict [subscriptions] is read, never written. *)
Definition get_subscriptions : M (gmap Z loc) :=
  fun w => (Ok (subscriptions w), w).

(** [create_processed_agent_data] (lines 106-117) with the constructor
    called on line 109 as the parameter [build]. *)
Definition create_with (build : Dict → Res ProcessedAgentDataInDB)
    (env : Env) (data : ProcessedAgentData) : M ProcessedAgentDataInDB :=
  session <- SessionLocal env ;;
  kw <- lift (call_kwargs (ProcessedAgentData_dict data)
                [("timestamp", PyDatetime (utcnow env))]) ;;
  db_data <- lift (build kw) ;;
  let session := session_add session db_data in
  session_commit env session ;;;
  (reg <- get_subscriptions ;;
   match reg !! user_id (agent_data data) with
   | Some l =>
       message <- lift (dumps (PyDict (ProcessedAgentDataInDB_dict db_data))) ;;
       it <- set_iter l ;;
       fanout (S (it_used it)) env message it
   | None => ret tt
   end) ;;;
  ret db_data.

(** The endpoint as main.py has it: line 109 calls the model class. *)
Definition create_processed_agent_data
    : Env → ProcessedAgentData → M ProcessedAgentDataInDB :=
  create_with ProcessedAgentDataInDB_init.

(** [read_processed_agent_data] (lines 122-128) *)
Definition read_processed_agent_data (env : Env)
    (processed_agent_data_id : Z) : M ProcessedAgentDataInDB :=
  session <- SessionLocal env ;;
  data <- query_first processed_agent_data_id ;;
  match data with
  | None => raise (HTTPException 404 "Item not found")
  | Some data => ret data
  end.

(** [list_processed_agent_data] (lines 133-136) *)
Definition list_processed_agent_data (env : Env)
    : M (list ProcessedAgentDataInDB) :=
  session <- SessionLocal env ;;
  query_all.

(** The loop of lines 147-148 over [data.dict().items()]. *)
Fixpoint setattrs (obj : ProcessedAgentDataInDB) (items : Dict)
    : Res ProcessedAgentDataInDB :=
  match items with
  | [] => Ok obj
  | (name, value) :: rest =>
      res_bind (setattr obj name value) (fun obj' => setattrs obj' rest)
  end.

(** [update_processed_agent_data] (lines 141-150) *)
Definition update_processed_agent_data (env : Env)
    (processed_agent_data_id : Z) (data : ProcessedAgentData)
    : M ProcessedAgentDataInDB :=
  session <- SessionLocal env ;;
  db_data <- query_first processed_agent_data_id ;;
  match db_data with
  | None => raise (HTTPException 404 "Item not found")
  | Some db_data =>
      db_data' <- lift (setattrs db_data (ProcessedAgentData_dict data)) ;;
      let session := session_changed session db_data' in
      session_commit env session ;;;
      ret db_data'
  end.

(** [delete_processed_agent_data] (lines 155-163) *)
Definition delete_processed_agent_data (env : Env)
    (processed_agent_data_id : Z) : M ProcessedAgentDataInDB :=
  session <- SessionLocal env ;;
  data <- query_first processed_agent_data_id ;;
  match data with
  | None => raise (HTTPException 404 "Item not found")
  | Some data =>
      let session := session_delete session data in
      session_commit env session ;;;
      ret data
  end.

(** ** The application: routes, and the states it can reach *)

Inductive Request :=
| POST (body : PyValue)
| GET (processed_agent_data_id : Z)
| GET_all
| PUT (processed_agent_data_id : Z) (body : PyValue)
| DELETE (processed_agent_data_id : Z).

Inductive Body :=
| One (r : ProcessedAgentDataInDB)
| Many (rs : list ProcessedAgentDataInDB).

(** FastAPI validates the body, then calls the endpoint function. *)
Definition serve_with (build : Dict → Res ProcessedAgentDataInDB)
    (env : Env) (req : Request) : M Body :=
  match req with
  | POST body =>
      data <- lift (parse_body body) ;;
      r <- create_with build env data ;;
      ret (One r)
  | GET i =>
      r <- read_processed_agent_data env i ;;
      ret (One r)
  | GET_all =>
      rs <- list_processed_agent_data env ;;
      ret (Many rs)
  | PUT i body =>
      data <- lift (parse_body body) ;;
      r <- update_processed_agent_data env i data ;;
      ret (One r)
  | DELETE i =>
      r <- delete_processed_agent_data env i ;;
      ret (One r)
  end.

Definition serve : Env → Request → M Body :=
  serve_with ProcessedAgentDataInDB_init.

(** The process starts with the table as the database has it and an
    empty [subscriptions] dict (line 100). *)
Definition initial (table : gmap Z ProcessedAgentDataInDB) : World :=
  mk_World table ∅ ∅ [].

Inductive reachable (build : Dict → Res ProcessedAgentDataInDB)
    : World → Prop :=
| reachable_initial table : reachable build (initial table)
| reachable_serve w env req :
    reachable build w →
    reachable build (snd (serve_with build env req w)).

End Endpoints.

(** * Vocabulary of the properties *)

(** The loop of lines 115-116 over a list of connections: one [send_text]
    each, in order, up to the first that raises. *)
Fixpoint send_all (env : Env) (message : string) (l : list WebSocket)
    : M unit :=
  match l with
  | [] => ret tt
  | ws :: l' => send_text env ws message ;;; send_all env message l'
  end.

(** The events [send_all] leaves: a [Sent] per connection up to the first
    whose send raises, which leaves a [SendFailed]. *)
Fixpoint attempts (env : Env) (message : string) (l : list WebSocket)
    : list Event :=
  match l with
  | [] => []
  | ws :: l' =>
      if send_succeeds env ws then Sent ws message :: attempts env message l'
      else [SendFailed ws message]
  end.

(** The first connection of [l] whose send raises. *)
Definition first_failure (env : Env) (l : list WebSocket) : option WebSocket :=
  find (fun ws => negb (send_succeeds env ws)) l.

(** The keywords line 109 passes to the constructor. *)
Definition create_kwargs (env : Env) (data : ProcessedAgentData) : Dict :=
  ProcessedAgentData_dict data ++ [("timestamp", PyDatetime (utcnow env))].

(** The world after the commit of a new record. *)
Definition committed (w : World) (r : ProcessedAgentDataInDB) : World :=
  mk_World (<[db_id r := r]> (store w)) (subscriptions w) (heap w)
    (trace w ++ [Committed [Insert r]]).

(** [ws] is in the set that [subscriptions] holds for [agent]. *)
Definition subscribed (w : World) (agent : Z) (ws : WebSocket) : Prop :=
  ∃ l, subscriptions w !! agent = Some l ∧ ws ∈ deref (heap w) l.

(** The messages delivered to [ws] among the events, oldest first. *)
Definition deliveries (events : list Event) (ws : WebSocket) : list string :=
  omap (fun e =>
          match e with
          | Sent ws' message => if Nat.eqb ws' ws then Some message else None
          | _ => None
          end) events.

(** The commits among the events, oldest first. *)
Definition commits (events : list Event) : list (list DbOp) :=
  omap (fun e =>
          match e with
          | Committed ops => Some ops
          | _ => None
          end) events.

(** Every send attempt comes after a commit. *)
Definition commit_precedes_dispatch (events : list Event) : Prop :=
  ∀ i e, events !! i = Some e → is_dispatch e = true →
    ∃ j ops, (j < i)%nat ∧ events !! j = Some (Committed ops).


(** The [timestamp] a request body gives. *)
Definition body_timestamp (body : PyValue) : option PyValue :=
  match body with
  | PyDict d =>
      match dict_get d "agent_data" with
      | Some (PyDict a) => dict_get a "timestamp"
      | _ => None
      end
  | _ => None
  end.


(** The set object at [l] becomes [s]: what a subscribe or an unsubscribe
    running between two sends of a fan-out would do to the registry. *)
Definition set_object (l : loc) (s : gset WebSocket) (w : World) : World :=
  mk_World (store w) (subscriptions w) (<[l := s]> (heap w)) (trace w).

(** ** What the specification asks of the fan-out, as it states it *)




(** ** A library instance and inputs to run the model on *)

Definition strict_int (v : PyValue) : option Z :=
  match v with PyInt n => Some n | _ => None end.

Definition strict_float (v : PyValue) : option float :=
  match v with PyFloat f => Some f | _ => None end.

Definition strict_str (v : PyValue) : option string :=
  match v with PyStr s => Some s | _ => None end.

Definition digit (c : ascii) : option Z :=
  let n := Z.of_N (N_of_ascii c) in
  if ((48 <=? n)%Z && (n <=? 57)%Z)%bool then Some (n - 48) else None.

Fixpoint number (s : string) (acc : Z) : option Z :=
  match s with
  | EmptyString => Some acc
  | String c s' => d ← digit c; number s' (10 * acc + d)
  end.

(** The ISO 8601 strings of the shape [YYYY-MM-DDTHH:MM:SS], with or
    without a final [Z]. *)
Definition fromisoformat_basic (s : string) : option datetime :=
  let shape :=
    (String.eqb (substring 4 1 s) "-" && String.eqb (substring 7 1 s) "-" &&
     String.eqb (substring 10 1 s) "T" && String.eqb (substring 13 1 s) ":" &&
     String.eqb (substring 16 1 s) ":")%bool in
  let zone :=
    if Nat.eqb (String.length s) 19 then Some None
    else if (Nat.eqb (String.length s) 20 && String.eqb (substring 19 1 s) "Z")%bool
         then Some (Some 0)
         else None in
  if shape then
    tz ← zone;
    yy ← number (substring 0 4 s) 0;
    mo ← number (substring 5 2 s) 0;
    dd ← number (substring 8 2 s) 0;
    hh ← number (substring 11 2 s) 0;
    mi ← number (substring 14 2 s) 0;
    ss ← number (substring 17 2 s) 0;
    if ((1 <=? mo)%Z && (mo <=? 12)%Z && (1 <=? dd)%Z && (dd <=? 31)%Z &&
        (hh <=? 23)%Z && (mi <=? 59)%Z && (ss <=? 59)%Z)%bool
    then Some (mk_datetime yy mo dd hh mi ss 0 tz)
    else None
  else None.

Definition render_Z (n : Z) : string :=
  NilZero.string_of_int (Z.to_int n).

Definition quoted (s : string) : string :=
  let q := String (ascii_of_nat 34) EmptyString in
  String.append q (String.append s q).

Definition render_datetime (t : datetime) : string :=
  String.concat "-" [render_Z (year t); render_Z (month t); render_Z (day t);
                     render_Z (hour t); render_Z (minute t); render_Z (second t)].

(** A serializer in the manner of [json.dumps(obj, default=str)]; floats
    are not spelled out. *)
Fixpoint render (v : PyValue) : string :=
  match v with
  | PyNone => "null"
  | PyBool b => if b then "true" else "false"
  | PyInt n => render_Z n
  | PyFloat _ => "<float>"
  | PyStr s => quoted s
  | PyDatetime t => quoted (render_datetime t)
  | PyList l =>
      String.append "["
        ((fix items (l : list PyValue) : string :=
            match l with
            | [] => "]"
            | v :: l' => String.append (render v) (String.append "," (items l'))
            end) l)
  | PyDict d =>
      String.append "{"
        ((fix items (d : list (string * PyValue)) : string :=
            match d with
            | [] => "}"
            | (k, v) :: d' =>
                String.append (quoted k)
                  (String.append ":" (String.append (render v)
                     (String.append "," (items d'))))
            end) d)
  end.

(** The UTC date and time of a Unix time in seconds. *)
Definition unix_datetime (n : Z) : datetime :=
  let days := n / 86400 in
  let secs := n mod 86400 in
  let z := days + 719468 in
  let era := z / 146097 in
  let doe := z mod 146097 in
  let yoe := (doe - doe / 1460 + doe / 36524 - doe / 146096) / 365 in
  let doy := doe - (365 * yoe + yoe / 4 - yoe / 100) in
  let mp := (5 * doy + 2) / 153 in
  let d := doy - (153 * mp + 2) / 5 + 1 in
  let m := if (mp <? 10)%Z then mp + 3 else mp - 9 in
  let y := yoe + era * 400 + (if (m <=? 2)%Z then 1 else 0) in
  mk_datetime y m d (secs / 3600) (secs mod 3600 / 60) (secs mod 60) 0 (Some 0).

(** A [datetime] field in the manner of pydantic: a [datetime] as it is,
    a string in ISO 8601, an integer as Unix time. *)
Definition basic_datetime (v : PyValue) : option datetime :=
  match v with
  | PyDatetime t => Some t
  | PyStr s => fromisoformat_basic s
  | PyInt n =>
      if ((0 <=? n)%Z && (n <=? 20000000000)%Z)%bool
      then Some (unix_datetime n) else None
  | _ => None
  end.

Definition basic_library : Library.
Proof.
  refine (Build_Library fromisoformat_basic (fun v => Some (render v))
            strict_int strict_float strict_str basic_datetime
            (fun _ => eq_refl) (fun _ => eq_refl) (fun _ => eq_refl)
            (fun _ => eq_refl) _).
  intros n [Hlo Hhi]. unfold basic_datetime.
  apply Z.leb_le in Hlo, Hhi. rewrite Hlo, Hhi. by eexists.
Defined.

(** A constructor that succeeds on the keywords of line 109: it takes the
    flat fields from the nested [agent_data] and the [id] given, and calls
    the model class on the result.  It stands for a line 109 that builds
    the record; the runs that reach the commit are shown with it. *)
Definition flat_kwargs (new_id : Z) (kw : Dict) : Dict :=
  let sub d k := match dict_get d k with Some (PyDict d') => d' | _ => [] end in
  let get d k := default PyNone (dict_get d k) in
  let a := sub kw "agent_data" in
  kw ++ [("id", PyInt new_id);
         ("user_id", get a "user_id");
         ("x", get (sub a "accelerometer") "x");
         ("y", get (sub a "accelerometer") "y");
         ("z", get (sub a "accelerometer") "z");
         ("latitude", get (sub a "gps") "latitude");
         ("longitude", get (sub a "gps") "longitude")].

Definition flat_record `{Library} (new_id : Z) (kw : Dict)
    : Res ProcessedAgentDataInDB :=
  ProcessedAgentDataInDB_init (flat_kwargs new_id kw).

(** The flattening constructor under the basic library, giving id 1. *)
Definition flat1 : Dict → Res ProcessedAgentDataInDB :=
  flat_record (H:=basic_library) 1.

(** The record of the scenario: agent 42, a pothole. *)
Definition t_client : datetime := mk_datetime 2024 1 1 0 0 0 0 (Some 0).
Definition t_server : datetime := mk_datetime 2024 6 1 12 0 0 0 None.

Definition data42 : ProcessedAgentData :=
  mk_ProcessedAgentData "pothole"
    (mk_AgentData 42 (mk_AccelerometerData 1 2 3) (mk_GpsData 50 30) t_client).

Definition body_of (ts : PyValue) : PyValue :=
  PyDict [("road_state", PyStr "pothole");
          ("agent_data",
           PyDict [("user_id", PyInt 42);
                   ("accelerometer",
                    PyDict [("x", PyFloat 1); ("y", PyFloat 2); ("z", PyFloat 3)]);
                   ("gps", PyDict [("latitude", PyFloat 50); ("longitude", PyFloat 30)]);
                   ("timestamp", ts)])].

Definition body42 : PyValue := body_of (PyStr "2024-01-01T00:00:00Z").
Definition body_bad : PyValue := body_of (PyStr "yesterday at noon").

(** A body whose timestamp is a number, a Unix time. *)
Definition body_unix : PyValue := body_of (PyInt 1700000000).

Definition record42 : ProcessedAgentDataInDB :=
  mk_ProcessedAgentDataInDB 1 "pothole" 42 1 2 3 50 30 t_server.

Definition message42 : string :=
  render (PyDict (ProcessedAgentDataInDB_dict record42)).

(** Every connection takes its message. *)
Definition env_ok : Env := mk_Env t_server true true (fun _ => true).

(** The send to connection 2 raises. *)
Definition env_2_fails : Env :=
  mk_Env t_server true true (fun ws => negb (Nat.eqb ws 2)).

(** The database refuses the commit. *)
Definition env_db_down : Env := mk_Env t_server true false (fun _ => true).

(** Connections 1 and 2 listen to agent 42 (the set iterates 2 first),
    connection 3 to agent 7; the table is empty. *)
Definition w_subscribed : World :=
  mk_World ∅ (<[42 := 1%positive]> (<[7 := 2%positive]> ∅))
    (<[1%positive := {[1%nat; 2%nat]}]> (<[2%positive := {[3%nat]}]> ∅)) [].

(** A table that holds [record42]. *)
Definition w_stored : World := initial (<[1 := record42]> ∅).


(** The ways a run of [create_with] from [w] can go: its result, its final
    world and the events it adds. *)
Inductive create_case `{Library} (build : Dict → Res ProcessedAgentDataInDB)
    (env : Env) (data : ProcessedAgentData) (w : World)
    : Res ProcessedAgentDataInDB → World → list Event → Prop :=
| create_session_fails :
    session_opens env = false →
    create_case build env data w (Raise StorageError) w []
| create_build_raises e :
    session_opens env = true →
    build (create_kwargs env data) = Raise e →
    create_case build env data w (Raise e) w []
| create_commit_fails r :
    session_opens env = true →
    build (create_kwargs env data) = Ok r →
    commit_succeeds env = false ∨ is_Some (store w !! db_id r) →
    create_case build env data w (Raise StorageError) w []
| create_without_subscribers r :
    session_opens env = true →
    commit_succeeds env = true →
    build (create_kwargs env data) = Ok r →
    store w !! db_id r = None →
    subscriptions w !! user_id (agent_data data) = None →
    create_case build env data w (Ok r) (committed w r) [Committed [Insert r]]
| create_not_serializable r l :
    session_opens env = true →
    commit_succeeds env = true →
    build (create_kwargs env data) = Ok r →
    store w !! db_id r = None →
    subscriptions w !! user_id (agent_data data) = Some l →
    json_dumps (PyDict (ProcessedAgentDataInDB_dict r)) = None →
    create_case build env data w
      (Raise (TypeError "Object is not JSON serializable"))
      (committed w r) [Committed [Insert r]]
| create_dispatches r l message :
    session_opens env = true →
    commit_succeeds env = true →
    build (create_kwargs env data) = Ok r →
    store w !! db_id r = None →
    subscriptions w !! user_id (agent_data data) = Some l →
    json_dumps (PyDict (ProcessedAgentDataInDB_dict r)) = Some message →
    create_case build env data w
      (match first_failure env (elements (deref (heap w) l)) with
       | None => Ok r
       | Some ws => Raise (SendError ws)
       end)
      (log (committed w r) (attempts env message (elements (deref (heap w) l))))
      (Committed [Insert r] :: attempts env message (elements (deref (heap w) l))).

(** ** Sequences of requests *)

(** The requests of a list served one after the other. *)
Fixpoint serve_all `{Library} (build : Dict → Res ProcessedAgentDataInDB)
    (requests : list (Env * Request)) (w : World) : World :=
  match requests with
  | [] => w
  | (env, req) :: rest => serve_all build rest (snd (serve_with build env req w))
  end.

(** The event of a commit that deletes one row of the table [t]. *)
Definition is_removal (t : gmap Z ProcessedAgentDataInDB) (e : Event) : Prop :=
  ∃ k r, t !! k = Some r ∧ e = Committed [Remove r].

(** No key of [extra] is the name of a field of [ProcessedAgentDataInDB]. *)
Definition names_no_field (extra : Dict) : Prop :=
  ∀ name, name ∈ ProcessedAgentDataInDB_fields → dict_get extra name = None.

(** A row of agent 7 under id 2, and a table with both rows. *)
Definition record7 : ProcessedAgentDataInDB :=
  mk_ProcessedAgentDataInDB 2 "smooth" 7 0 0 1 49 31 t_server.

Definition w_two_rows : World :=
  initial (<[1 := record42]> (<[2 := record7]> ∅)).



(** * Properties *)

(** ** The trace and the fan-out loop *)

Lemma log_nil w : log w [] = w.
Proof. destruct w. unfold log. cbn. by rewrite app_nil_r. Qed.

Lemma log_log w a b : log (log w a) b = log w (a ++ b).
Proof. unfold log. cbn. by rewrite app_assoc. Qed.

Lemma send_text_frame env ws message w :
  store (snd (send_text env ws message w)) = store w ∧
  subscriptions (snd (send_text env ws message w)) = subscriptions w ∧
  heap (snd (send_text env ws message w)) = heap w.
Proof.
  unfold send_text. destruct (send_succeeds env ws); cbn; auto.
Qed.

(** With enough fuel, and [S (it_used it)] is enough, the loop over the set
    at [l] is [send_all] over what is left of its elements. *)
Lemma fanout_send_all env message l used : ∀ fuel pos w,
  size (deref (heap w) l) = used →
  (used - pos < fuel)%nat →
  fanout fuel env message (mk_SetIter l used pos) w =
  send_all env message (drop pos (elements (deref (heap w) l))) w.
Proof.
  induction fuel as [|fuel IH]; intros pos w Hsize Hfuel; [lia|].
  cbn [fanout]. unfold bind at 1, set_next. cbn [it_loc it_used it_pos].
  rewrite bool_decide_eq_true_2 by done.
  destruct (elements (deref (heap w) l) !! pos) as [ws|] eqn:Hpos.
  - rewrite (drop_S _ _ _ Hpos). cbn [send_all].
    unfold bind.
    pose proof (send_text_frame env ws message w) as (_ & _ & Hheap).
    destruct (send_text env ws message w) as [[[]|e] w1] eqn:Hsend;
      cbn [snd] in Hheap; [|done].
    rewrite IH.
    + by rewrite Hheap.
    + by rewrite Hheap.
    + apply lookup_lt_Some in Hpos.
      change (size (deref (heap w) l)) with
        (length (elements (deref (heap w) l))) in Hsize. lia.
  - apply lookup_ge_None in Hpos. by rewrite drop_ge.
Qed.

Lemma send_all_spec env message l : ∀ w,
  send_all env message l w =
  (match first_failure env l with
   | None => Ok tt
   | Some ws => Raise (SendError ws)
   end, log w (attempts env message l)).
Proof.
  induction l as [|ws l IH]; intros w; cbn.
  - by rewrite log_nil.
  - unfold bind, send_text, first_failure. cbn.
    destruct (send_succeeds env ws) eqn:Hws; cbn.
    + rewrite IH, log_log. done.
    + done.
Qed.

(** The bound of the loop is never reached. *)
Lemma fanout_total env message l w :
  fst (fanout (S (size (deref (heap w) l))) env message
         (mk_SetIter l (size (deref (heap w) l)) 0) w) ≠ Raise OutOfFuel.
Proof.
  rewrite fanout_send_all by (done || lia).
  rewrite send_all_spec. cbn. by destruct (first_failure _ _).
Qed.

Lemma attempts_dispatch env message l :
  Forall (fun e => is_dispatch e = true) (attempts env message l).
Proof.
  induction l as [|ws l IH]; cbn; [constructor|].
  destruct (send_succeeds env ws); repeat constructor; done.
Qed.



Lemma deliveries_app a b ws :
  deliveries (a ++ b) ws = deliveries a ws ++ deliveries b ws.
Proof. unfold deliveries. apply omap_app. Qed.



Lemma deliveries_attempts_other env message l ws :
  ws ∉ l → deliveries (attempts env message l) ws = [].
Proof.
  induction l as [|ws' l IH]; intros Hnotin; [done|].
  apply not_elem_of_cons in Hnotin as [Hne Hnotin].
  cbn. destruct (send_succeeds env ws'); cbn; [|done].
  rewrite (proj2 (Nat.eqb_neq ws' ws)) by done. by apply IH.
Qed.

(** ** The ingest endpoint, case by case *)

Section Create.
Context `{Library}.
Variable build : Dict → Res ProcessedAgentDataInDB.

Lemma call_kwargs_create env data :
  call_kwargs (ProcessedAgentData_dict data)
    [("timestamp", PyDatetime (utcnow env))] = Ok (create_kwargs env data).
Proof. reflexivity. Qed.

Lemma create_with_spec env data w :
  create_with build env data w =
  if session_opens env then
    match build (create_kwargs env data) with
    | Raise e => (Raise e, w)
    | Ok db_data =>
        if commit_succeeds env then
          match store w !! db_id db_data with
          | Some _ => (Raise StorageError, w)
          | None =>
              match subscriptions w !! user_id (agent_data data) with
              | None => (Ok db_data, committed w db_data)
              | Some l =>
                  match json_dumps (PyDict (ProcessedAgentDataInDB_dict db_data)) with
                  | None =>
                      (Raise (TypeError "Object is not JSON serializable"),
                       committed w db_data)
                  | Some message =>
                      let targets := elements (deref (heap w) l) in
                      (match first_failure env targets with
                       | None => Ok db_data
                       | Some ws => Raise (SendError ws)
                       end,
                       log (committed w db_data) (attempts env message targets))
                  end
              end
          end
        else (Raise StorageError, w)
    end
  else (Raise StorageError, w).
Proof.
  unfold create_with, SessionLocal.
  destruct (session_opens env); [|done].
  unfold bind at 1. cbn [ret].
  rewrite call_kwargs_create. unfold bind at 1, lift at 1.
  unfold bind at 1, lift at 1.
  destruct (build (create_kwargs env data)) as [db_data|e]; [|done].
  unfold bind at 1, session_commit, session_add. cbn [app apply_ops apply_op].
  destruct (commit_succeeds env); [|done].
  destruct (store w !! db_id db_data) eqn:Hfresh; [done|].
  fold (committed w db_data).
  unfold bind at 1. unfold bind at 1, get_subscriptions.
  change (subscriptions (committed w db_data)) with (subscriptions w).
  destruct (subscriptions w !! user_id (agent_data data)) as [l|]; [|done].
  unfold bind at 1, lift, dumps.
  destruct (json_dumps _) as [message|]; [|done].
  unfold bind at 1, set_iter. cbn [it_used].
  rewrite fanout_send_all by (cbn; lia || done).
  rewrite send_all_spec. cbn [heap committed].
  by destruct (first_failure _ _).
Qed.

Lemma emitted_unchanged {A} (m : M A) w : snd (m w) = w → emitted m w = [].
Proof. unfold emitted. intros ->. by rewrite drop_all. Qed.

Lemma emitted_log {A} (m : M A) w w' events :
  snd (m w) = w' → trace w' = trace w ++ events → emitted m w = events.
Proof. unfold emitted. intros -> ->. by rewrite drop_app_length. Qed.

Lemma create_with_cases env data w :
  create_case build env data w
    (fst (create_with build env data w))
    (snd (create_with build env data w))
    (emitted (create_with build env data) w).
Proof.
  pose proof (create_with_spec env data w) as Hspec.
  destruct (session_opens env) eqn:Hopen.
  2:{ rewrite (emitted_unchanged _ w) by (by rewrite Hspec).
      rewrite Hspec. by constructor. }
  destruct (build (create_kwargs env data)) as [r|e] eqn:Hbuild.
  2:{ rewrite (emitted_unchanged _ w) by (by rewrite Hspec).
      rewrite Hspec. by constructor. }
  destruct (commit_succeeds env) eqn:Hcommit.
  2:{ rewrite (emitted_unchanged _ w) by (by rewrite Hspec).
      rewrite Hspec. eapply create_commit_fails; eauto. }
  destruct (store w !! db_id r) eqn:Hfresh.
  { rewrite (emitted_unchanged _ w) by (by rewrite Hspec).
    rewrite Hspec. eapply create_commit_fails; eauto. }
  destruct (subscriptions w !! user_id (agent_data data)) as [l|] eqn:Hsub.
  2:{ rewrite (emitted_log _ w (committed w r) [Committed [Insert r]])
        by (rewrite ?Hspec; done).
      rewrite Hspec. by constructor. }
  destruct (json_dumps (PyDict (ProcessedAgentDataInDB_dict r)))
    as [message|] eqn:Hdumps.
  2:{ rewrite (emitted_log _ w (committed w r) [Committed [Insert r]])
        by (rewrite ?Hspec; done).
      rewrite Hspec. by eapply create_not_serializable. }
  cbv zeta in Hspec.
  rewrite (emitted_log _ w
             (log (committed w r)
                (attempts env message (elements (deref (heap w) l))))
             (Committed [Insert r] ::
                attempts env message (elements (deref (heap w) l)))).
  - rewrite Hspec. by eapply create_dispatches.
  - by rewrite Hspec.
  - cbn. by rewrite <- app_assoc.
Qed.

(** The endpoint leaves the registry as it found it, and only adds to the
    trace. *)
Lemma create_with_frame env data w :
  subscriptions (snd (create_with build env data w)) = subscriptions w ∧
  heap (snd (create_with build env data w)) = heap w ∧
  trace (snd (create_with build env data w)) =
    trace w ++ emitted (create_with build env data) w.
Proof.
  destruct (create_with_cases env data w); cbn;
    rewrite ?app_nil_r, <- ?app_assoc; done.
Qed.

End Create.

(** ** Commit before notify *)

Lemma commits_attempts env message l : commits (attempts env message l) = [].
Proof.
  induction l as [|ws l IH]; [done|].
  cbn. destruct (send_succeeds env ws); done.
Qed.

Lemma commit_precedes_dispatch_cons ops events :
  commit_precedes_dispatch (Committed ops :: events).
Proof.
  intros [|i] e Hi He.
  - cbn in Hi. by injection Hi as <-.
  - exists 0%nat, ops. split; [lia|done].
Qed.

Lemma deliveries_cons_sent ws' message events ws :
  deliveries (Sent ws' message :: events) ws =
  (if Nat.eqb ws' ws then [message] else []) ++ deliveries events ws.
Proof. unfold deliveries. cbn. by destruct (Nat.eqb ws' ws). Qed.

Lemma deliveries_attempts_le env message l ws :
  NoDup l → (length (deliveries (attempts env message l) ws) ≤ 1)%nat.
Proof.
  induction 1 as [|ws' l Hnotin Hnodup IH]; [cbn; lia|].
  cbn [attempts]. destruct (send_succeeds env ws'); [|cbn; lia].
  rewrite deliveries_cons_sent.
  destruct (Nat.eqb_spec ws' ws) as [->|Hne]; [|done].
  rewrite deliveries_attempts_other by done. cbn. lia.
Qed.

(** C1. Commit before notify: in every run of the ingest endpoint each send
    attempt comes after the commit, the endpoint commits at most once, what
    it commits is the one new record, which is then in the store, and no
    connection gets more than one message; and when the store write fails
    (the commit is refused, or the endpoint ends in a storage error)
    nothing is sent and nothing has changed.  This holds for whatever
    line 109 constructs, so for main.py's constructor too. *)
Theorem commit_before_notify `{Library}
    (build : Dict → Res ProcessedAgentDataInDB) env data w :
  let run := create_with build env data w in
  let events := emitted (create_with build env data) w in
  commit_precedes_dispatch events ∧
  (length (commits events) ≤ 1)%nat ∧
  (∀ ops, Committed ops ∈ events →
     ∃ r, ops = [Insert r] ∧ store (snd run) !! db_id r = Some r) ∧
  (∀ ws, (length (deliveries events ws) ≤ 1)%nat) ∧
  (commit_succeeds env = false → events = [] ∧ snd run = w) ∧
  (fst run = Raise StorageError → events = [] ∧ snd run = w).
Proof.
  cbv zeta.
  destruct (create_with_cases build env data w) as
    [Hopen|e Hopen Hbuild|r Hopen Hbuild Hfail
    |r Hopen Hcommit Hbuild Hfresh Hsub
    |r l Hopen Hcommit Hbuild Hfresh Hsub Hdumps
    |r l message Hopen Hcommit Hbuild Hfresh Hsub Hdumps].
  1-3: (split; [by intros [|i] e' Hi|]); (split; [cbn; lia|]);
       (split; [by intros ops ?%elem_of_nil|]);
       (split; [intros ws; cbn; lia|]); done.
  1-2: (split; [apply commit_precedes_dispatch_cons|]); (split; [cbn; lia|]);
       (split; [|split; [intros ws; cbn; lia|split; [congruence|done]]]);
       intros ops [= ->]%list_elem_of_singleton; exists r; split; [done|];
       cbn; apply lookup_insert_eq.
  split; [apply commit_precedes_dispatch_cons|].
  split; [cbn; rewrite commits_attempts; cbn; lia|].
  split; [|split; [|split; [congruence|by destruct (first_failure _ _)]]].
  - intros ops [[= ->]|Hin]%elem_of_cons.
    + exists r. split; [done|]. cbn. apply lookup_insert_eq.
    + pose proof (attempts_dispatch env message (elements (deref (heap w) l)))
        as Hd.
      rewrite Forall_forall in Hd. apply Hd in Hin. done.
  - intros ws.
    change (length (deliveries ([Committed [Insert r]] ++
              attempts env message (elements (deref (heap w) l))) ws) ≤ 1)%nat.
    rewrite deliveries_app. cbn.
    apply deliveries_attempts_le, NoDup_elements.
Qed.


(** C1, on a run: connections 2 and 1 get the message after the commit. *)
Lemma commit_before_notify_run :
  commit_precedes_dispatch
    [Committed [Insert record42]; Sent 2%nat message42; Sent 1%nat message42].
Proof.
  assert (emitted (create_with (H:=basic_library) flat1 env_ok data42)
            w_subscribed =
          [Committed [Insert record42]; Sent 2%nat message42; Sent 1%nat message42])
    as <- by (vm_compute; reflexivity).
  exact (proj1 (commit_before_notify (H:=basic_library)
                  flat1 env_ok data42 w_subscribed)).
Defined.

(** ** Delivery *)









(** ** The timestamp of a new record *)

Lemma dict_get_app d1 d2 k :
  dict_get (d1 ++ d2) k =
  match dict_get d1 k with
  | Some v => Some v
  | None => dict_get d2 k
  end.
Proof.
  induction d1 as [|[k' v] d1 IH]; [done|].
  cbn. by destruct (String.eqb k' k).
Qed.





(** ** The endpoints by id *)

Lemma read_spec env i w :
  read_processed_agent_data env i w =
  if session_opens env then
    match store w !! i with
    | None => (Raise (HTTPException 404 "Item not found"), w)
    | Some r => (Ok r, w)
    end
  else (Raise StorageError, w).
Proof.
  unfold read_processed_agent_data, SessionLocal.
  destruct (session_opens env); [|done].
  unfold bind, ret, query_first. by destruct (store w !! i).
Qed.

(** The loop of lines 147-148 sets [road_state] and then raises on
    [agent_data], which is no field of [ProcessedAgentDataInDB]. *)
Lemma setattrs_dict r data :
  setattrs r (ProcessedAgentData_dict data) =
  Raise (ValueError "ProcessedAgentDataInDB object has no field").
Proof. reflexivity. Qed.

Lemma update_spec env i data w :
  update_processed_agent_data env i data w =
  if session_opens env then
    match store w !! i with
    | None => (Raise (HTTPException 404 "Item not found"), w)
    | Some r => (Raise (ValueError "ProcessedAgentDataInDB object has no field"), w)
    end
  else (Raise StorageError, w).
Proof.
  unfold update_processed_agent_data, SessionLocal.
  destruct (session_opens env); [|done].
  unfold bind at 1, ret. unfold bind at 1, query_first.
  destruct (store w !! i); [|done].
  unfold bind at 1, lift. by rewrite setattrs_dict.
Qed.

Lemma update_never_ill_typed env i data w name :
  fst (update_processed_agent_data env i data w) ≠ Raise (IllTyped name).
Proof.
  rewrite update_spec.
  destruct (session_opens env); [|done]. by destruct (store w !! i).
Qed.

Lemma delete_spec env i w :
  delete_processed_agent_data env i w =
  if session_opens env then
    match store w !! i with
    | None => (Raise (HTTPException 404 "Item not found"), w)
    | Some r =>
        if commit_succeeds env then
          (Ok r, mk_World (delete (db_id r) (store w)) (subscriptions w)
                   (heap w) (trace w ++ [Committed [Remove r]]))
        else (Raise StorageError, w)
    end
  else (Raise StorageError, w).
Proof.
  unfold delete_processed_agent_data, SessionLocal.
  destruct (session_opens env); [|done].
  unfold bind at 1, ret. unfold bind at 1, query_first.
  destruct (store w !! i) as [r|]; [|done].
  unfold bind, session_commit, session_delete. cbn.
  by destruct (commit_succeeds env).
Qed.

Lemma list_spec env w :
  list_processed_agent_data env w =
  if session_opens env then (Ok (snd <$> map_to_list (store w)), w)
  else (Raise StorageError, w).
Proof.
  unfold list_processed_agent_data, SessionLocal.
  by destruct (session_opens env).
Qed.







(** ** Input validation *)

(** The class [AgentData] has no validator for [timestamp]: the proxy of
    [check_timestamp] sits inside a [classmethod] object.  The same two
    decorators in the other order give the validator. *)
Lemma AgentData_before_validators `{Library} :
  before_validators AgentData_attrs "timestamp" = [].
Proof. reflexivity. Qed.

Lemma before_validators_other_order `{Library} :
  before_validators
    [FieldValidator "timestamp" Before (Classmethod (Function check_timestamp))]
    "timestamp" = [check_timestamp].
Proof. reflexivity. Qed.

(** So the [timestamp] of a request is validated as any [datetime]. *)
Lemma validate_timestamp_datetime `{Library} v :
  validate_timestamp v = validate_datetime v.
Proof. reflexivity. Qed.

Lemma AgentData_validate_bad_timestamp `{Library} a v :
  dict_get a "timestamp" = Some v → validate_datetime v = None →
  ∃ errors, AgentData_validate a = inl errors.
Proof.
  intros Hts Hbad. unfold AgentData_validate. cbv zeta.
  assert (field validate_timestamp a "timestamp" = inl (Invalid "timestamp"))
    as ->.
  { unfold field. by rewrite Hts, validate_timestamp_datetime, Hbad. }
  destruct (field validate_int a "user_id");
    destruct (field (validate_model AccelerometerData_validate) a "accelerometer");
    destruct (field (validate_model GpsData_validate) a "gps"); by eexists.
Qed.

(** X4. A request body whose timestamp the [datetime] validation of
    pydantic refuses does not validate; FastAPI answers with the
    validation error and never calls the endpoint function: the world
    (store, registry, trace) is untouched, and the answer is the same in
    every world, for every database and every connection, so nothing of
    them was read. *)
Theorem invalid_timestamp_rejected `{Library} body v :
  body_timestamp body = Some v →
  validate_datetime v = None →
  ∃ errors,
    parse_body body = Raise (RequestValidationError errors) ∧
    ∀ build env w,
      serve_with build env (POST body) w =
      (Raise (RequestValidationError errors), w).
Proof.
  intros Hts Hbad.
  assert (∃ errors, parse_body body = Raise (RequestValidationError errors))
    as [errors Hparse].
  { unfold body_timestamp in Hts.
    destruct body as [| | | | | | |d]; try done.
    destruct (dict_get d "agent_data") as [[| | | | | | |a]|] eqn:Hagent; try done.
    destruct (AgentData_validate_bad_timestamp a v Hts Hbad) as [errs Herrs].
    unfold parse_body, ProcessedAgentData_validate. cbv zeta.
    assert (field (validate_model AgentData_validate) d "agent_data" =
            inl (Invalid "agent_data")) as ->.
    { unfold field, validate_model. by rewrite Hagent, Herrs. }
    destruct (field validate_str d "road_state"); by eexists. }
  exists errors. split; [done|].
  intros build env w. cbn. unfold bind, lift. by rewrite Hparse.
Qed.

(** X4 on a request: the timestamp "yesterday at noon" is refused, and a
    world with subscribers is left as it was. *)
Lemma invalid_timestamp_rejected_run :
  ∃ errors,
    serve_with (H:=basic_library) flat1 env_ok (POST body_bad) w_subscribed =
    (Raise (RequestValidationError errors), w_subscribed).
Proof.
  destruct (invalid_timestamp_rejected (H:=basic_library) body_bad
              (PyStr "yesterday at noon")) as (errors & _ & Hserve).
  - reflexivity.
  - reflexivity.
  - exists errors. apply Hserve.
Defined.

(** The body of the scenario validates, its timestamp being ISO 8601. *)
Example valid_body_accepted :
  parse_body (H:=basic_library) body42 = Ok data42.
Proof. vm_compute. reflexivity. Qed.

(** The keywords of line 109 name two of the nine fields. *)
Lemma init_create_kwargs `{Library} env data :
  ProcessedAgentDataInDB_init (create_kwargs env data) =
  Raise (ValidationError
           [Missing "id"; Missing "user_id"; Missing "x"; Missing "y";
            Missing "z"; Missing "latitude"; Missing "longitude"]).
Proof.
  unfold ProcessedAgentDataInDB_init, field. cbn.
  by rewrite validate_str_instance, validate_datetime_instance.
Qed.

Lemma create_raises `{Library} env data w :
  create_processed_agent_data env data w =
  (Raise (if session_opens env
          then ValidationError
                 [Missing "id"; Missing "user_id"; Missing "x"; Missing "y";
                  Missing "z"; Missing "latitude"; Missing "longitude"]
          else StorageError), w).
Proof.
  unfold create_processed_agent_data.
  rewrite create_with_spec, init_create_kwargs.
  by destruct (session_opens env).
Qed.



Example unix_datetime_1700000000 :
  unix_datetime 1700000000 = mk_datetime 2023 11 14 22 13 20 0 (Some 0).
Proof. reflexivity. Qed.

(** With a constructor that builds the record, that request is committed
    and sent on to the subscribers of agent 42. *)
Example numeric_timestamp_committed :
  fst (serve_with (H:=basic_library) flat1 env_ok (POST body_unix) w_subscribed) =
    Ok (One record42) ∧
  emitted (serve_with (H:=basic_library) flat1 env_ok (POST body_unix))
    w_subscribed =
    [Committed [Insert record42]; Sent 2%nat message42; Sent 1%nat message42].
Proof. vm_compute. done. Qed.

(** ** The constructor call of line 109 *)


(** ** The registry *)

(** No request changes [subscriptions] or a set object, and a request
    served with an empty [subscriptions] sends nothing. *)
Lemma serve_with_step `{Library} build env req w :
  subscriptions (snd (serve_with build env req w)) = subscriptions w ∧
  heap (snd (serve_with build env req w)) = heap w ∧
  ∃ events,
    trace (snd (serve_with build env req w)) = trace w ++ events ∧
    (subscriptions w = ∅ → Forall (fun e => is_dispatch e = false) events).
Proof.
  assert (∃ events, trace w = trace w ++ events ∧
            (subscriptions w = ∅ → Forall (fun e => is_dispatch e = false) events))
    as Hsame by (exists []; by rewrite app_nil_r).
  destruct req as [body|i| |i body|i]; cbn; unfold bind, lift.
  - destruct (parse_body body) as [data|e]; [|done].
    pose proof (create_with_frame build env data w) as (Hsub & Hheap & Htrace).
    pose proof (create_with_cases build env data w) as Hcase.
    destruct (create_with build env data w) as [[r|e] w'] eqn:Hrun;
      cbn [fst snd] in *.
    all: split; [done|]; split; [done|].
    all: exists (emitted (create_with build env data) w); split; [done|].
    all: intros Hempty; inversion Hcase as
      [| | | |r' l _ _ _ _ Hl|r' l message _ _ _ _ Hl]; subst;
      try (rewrite Hempty, lookup_empty in Hl; discriminate Hl);
      repeat constructor.
  - rewrite read_spec.
    destruct (session_opens env); [|done]. by destruct (store w !! i).
  - rewrite list_spec. by destruct (session_opens env).
  - destruct (parse_body body) as [data|e]; [|done].
    rewrite update_spec.
    destruct (session_opens env); [|done]. by destruct (store w !! i).
  - rewrite delete_spec.
    destruct (session_opens env); [|done].
    destruct (store w !! i) as [r|]; [|done].
    destruct (commit_succeeds env); [|done].
    cbn. split; [done|]. split; [done|].
    exists [Committed [Remove r]]. split; [done|]. by repeat constructor.
Qed.

(** C9. The registry is empty in every state the application can reach:
    [subscriptions] starts empty (line 100) and no endpoint adds to it, so
    no connection is ever subscribed, no set object exists, and no send is
    ever attempted.  This holds whatever line 109 constructs. *)
Theorem registry_always_empty `{Library}
    (build : Dict → Res ProcessedAgentDataInDB) w :
  reachable build w →
  subscriptions w = ∅ ∧
  heap w = ∅ ∧
  (∀ agent ws, ¬ subscribed w agent ws) ∧
  Forall (fun e => is_dispatch e = false) (trace w).
Proof.
  intros Hreach.
  assert (subscriptions w = ∅ ∧ heap w = ∅ ∧
          Forall (fun e => is_dispatch e = false) (trace w))
    as (Hsub & Hheap & Htrace).
  { induction Hreach as [table|w env req _ (IHsub & IHheap & IHtrace)].
    - repeat split. constructor.
    - destruct (serve_with_step build env req w)
        as (Hsub & Hheap & events & Htrace & Hquiet).
      rewrite Hsub, Hheap, Htrace. repeat split; [done..|].
      apply Forall_app. split; [done|by apply Hquiet]. }
  repeat split; [done..| |done].
  intros agent ws (l & Hl & _). by rewrite Hsub, lookup_empty in Hl.
Qed.

(** C9 on a run: a POST that commits a record leaves the registry empty. *)
Lemma registry_always_empty_run :
  subscriptions
    (snd (serve_with (H:=basic_library) flat1 env_ok (POST body42) (initial ∅)))
    = ∅ ∧
  store
    (snd (serve_with (H:=basic_library) flat1 env_ok (POST body42) (initial ∅)))
    !! 1 = Some record42.
Proof.
  split.
  - apply (registry_always_empty (H:=basic_library) flat1).
    apply reachable_serve, reachable_initial.
  - vm_compute. reflexivity.
Defined.

(** ** Iteration over the registry's set *)


Example dispatch_sees_later_mutation_run :
  fst (fanout 3 env_ok message42 (mk_SetIter 1%positive 2 1)
         (set_object 1%positive {[2%nat]} w_subscribed)) =
    Raise (RuntimeError "Set changed size during iteration") ∧
  fst (fanout 3 env_ok message42 (mk_SetIter 1%positive 2 1) w_subscribed) =
    Ok tt ∧
  emitted (fanout 3 env_ok message42 (mk_SetIter 1%positive 2 1)) w_subscribed =
    [Sent 1%nat message42].
Proof. vm_compute. done. Qed.


(** ** Runs of the model *)

(** The endpoint of main.py on the scenario: it raises on line 109. *)
Example create_on_scenario :
  create_processed_agent_data (H:=basic_library) env_ok data42 w_subscribed =
  (Raise (ValidationError
            [Missing "id"; Missing "user_id"; Missing "x"; Missing "y";
             Missing "z"; Missing "latitude"; Missing "longitude"]),
   w_subscribed).
Proof. vm_compute. reflexivity. Qed.

(** With a constructor that builds the record: commit, then the sends. *)
Example create_flat_on_scenario :
  fst (create_with (H:=basic_library) flat1 env_ok data42 w_subscribed) =
    Ok record42 ∧
  trace (snd (create_with (H:=basic_library) flat1 env_ok data42 w_subscribed)) =
    [Committed [Insert record42]; Sent 2%nat message42; Sent 1%nat message42].
Proof. vm_compute. done. Qed.

(** The database refuses the commit: nothing is sent. *)
Example create_flat_db_down :
  create_with (H:=basic_library) flat1 env_db_down data42 w_subscribed =
  (Raise StorageError, w_subscribed).
Proof. vm_compute. reflexivity. Qed.

(** The send to connection 2 raises: connection 1 is not tried. *)
Example create_flat_send_fails :
  fst (create_with (H:=basic_library) flat1 env_2_fails data42 w_subscribed) =
    Raise (SendError 2%nat) ∧
  trace (snd (create_with (H:=basic_library) flat1 env_2_fails data42
                w_subscribed)) =
    [Committed [Insert record42]; SendFailed 2%nat message42].
Proof. vm_compute. done. Qed.

(** * Further properties of the endpoints *)

(** ** The table: list, delete, and what the ingest endpoint adds *)










(** Id 1 is taken: the record built for it is refused. *)
Example create_flat_id_taken :
  create_with (H:=basic_library) flat1 env_ok data42 w_stored =
  (Raise StorageError, w_stored).
Proof. vm_compute. reflexivity. Qed.

(** ** The model classes *)

(** X9. A request model validated from its own [.dict()] is the model
    again, for each of the four classes of lines 65-96, and so a body that
    is the dict of a [ProcessedAgentData] validates to it. *)
Theorem validate_dict_roundtrip `{Library} :
  (∀ a, AccelerometerData_validate (AccelerometerData_dict a) = inr a) ∧
  (∀ g, GpsData_validate (GpsData_dict g) = inr g) ∧
  (∀ a, AgentData_validate (AgentData_dict a) = inr a) ∧
  (∀ d, ProcessedAgentData_validate (ProcessedAgentData_dict d) = inr d) ∧
  (∀ d, parse_body (PyDict (ProcessedAgentData_dict d)) = Ok d).
Proof.
  assert (∀ a, AccelerometerData_validate (AccelerometerData_dict a) = inr a)
    as Hacc.
  { intros [vx vy vz]. unfold AccelerometerData_validate, field. cbn.
    by rewrite !validate_float_instance. }
  assert (∀ g, GpsData_validate (GpsData_dict g) = inr g) as Hgps.
  { intros [la lo]. unfold GpsData_validate, field. cbn.
    by rewrite !validate_float_instance. }
  assert (∀ a, AgentData_validate (AgentData_dict a) = inr a) as Hagent.
  { intros [u acc g t]. unfold AgentData_validate, field, validate_model.
    cbn [AgentData_dict dict_get String.eqb Ascii.eqb Bool.eqb user_id
         accelerometer gps timestamp].
    rewrite validate_int_instance, Hacc, Hgps.
    change (validate_timestamp (PyDatetime t))
      with (validate_datetime (PyDatetime t)).
    by rewrite validate_datetime_instance. }
  assert (∀ d, ProcessedAgentData_validate (ProcessedAgentData_dict d) = inr d)
    as Hdata.
  { intros [rs a]. unfold ProcessedAgentData_validate, field, validate_model.
    cbn [ProcessedAgentData_dict dict_get String.eqb Ascii.eqb Bool.eqb
         road_state agent_data].
    by rewrite validate_str_instance, Hagent. }
  repeat split; try done.
  intros d. unfold parse_body. by rewrite Hdata.
Qed.

(** The constructor reads the keywords under the nine field names and no
    other. *)
Lemma ProcessedAgentDataInDB_init_ext `{Library} kw kw' :
  (∀ name, name ∈ ProcessedAgentDataInDB_fields →
           dict_get kw' name = dict_get kw name) →
  ProcessedAgentDataInDB_init kw' = ProcessedAgentDataInDB_init kw.
Proof.
  intros Hsame. unfold ProcessedAgentDataInDB_init, field.
  rewrite !Hsame; [done|unfold ProcessedAgentDataInDB_fields; set_solver..].
Qed.

(** X10. The constructor of [ProcessedAgentDataInDB] (lines 52-61) gives
    back a record from the record's own [.dict()], and keywords that name
    none of its fields change nothing, wherever they stand among the
    others. *)
Theorem init_dict_roundtrip `{Library} r kw extra :
  names_no_field extra →
  ProcessedAgentDataInDB_init (ProcessedAgentDataInDB_dict r) = Ok r ∧
  ProcessedAgentDataInDB_init (kw ++ extra) = ProcessedAgentDataInDB_init kw ∧
  ProcessedAgentDataInDB_init (extra ++ kw) = ProcessedAgentDataInDB_init kw.
Proof.
  intros Hextra. split; [|split].
  - destruct r. unfold ProcessedAgentDataInDB_init, field. cbn.
    by rewrite !validate_int_instance, validate_str_instance,
      !validate_float_instance, validate_datetime_instance.
  - apply ProcessedAgentDataInDB_init_ext. intros name Hname.
    rewrite dict_get_app, (Hextra name Hname).
    by destruct (dict_get kw name).
  - apply ProcessedAgentDataInDB_init_ext. intros name Hname.
    by rewrite dict_get_app, (Hextra name Hname).
Qed.

Lemma init_dict_roundtrip_run :
  ProcessedAgentDataInDB_init (H:=basic_library)
    (ProcessedAgentDataInDB_dict record42 ++
     [("agent_data", PyDict (AgentData_dict (agent_data data42)))]) =
  Ok record42.
Proof.
  destruct (init_dict_roundtrip (H:=basic_library) record42
              (ProcessedAgentDataInDB_dict record42)
              [("agent_data", PyDict (AgentData_dict (agent_data data42)))])
    as (Hround & Hafter & _).
  - intros name Hname. unfold ProcessedAgentDataInDB_fields in Hname.
    repeat (apply elem_of_cons in Hname as [->|Hname]; [reflexivity|]).
    by apply elem_of_nil in Hname.
  - by rewrite Hafter.
Defined.


(** ** The routes *)


(** A PUT of a body that does not validate, on an id the table has. *)
Example put_invalid_body_existing_id :
  ∃ errors,
    serve_with (H:=basic_library) flat1 env_ok (PUT 1 body_bad) w_stored =
    (Raise (RequestValidationError errors), w_stored).
Proof. eexists. vm_compute. reflexivity. Qed.

(** One request of main.py: the world stays as it is, or one row of the
    table is deleted. *)
Lemma serve_step `{Library} env req w :
  snd (serve env req w) = w ∨
  ∃ k r, store w !! k = Some r ∧
         snd (serve env req w) =
         mk_World (delete (db_id r) (store w)) (subscriptions w) (heap w)
           (trace w ++ [Committed [Remove r]]).
Proof.
  destruct req as [body|i| |i body|i].
  - left. unfold serve, serve_with, bind, lift.
    destruct (parse_body body) as [data|e]; [|done].
    pose proof (create_raises env data w) as Hrun.
    unfold create_processed_agent_data in Hrun. by rewrite Hrun.
  - left. unfold serve, serve_with, bind. rewrite read_spec.
    destruct (session_opens env); [|done]. by destruct (store w !! i).
  - left. unfold serve, serve_with, bind. rewrite list_spec.
    by destruct (session_opens env).
  - left. unfold serve, serve_with, bind, lift.
    destruct (parse_body body) as [data|e]; [|done].
    rewrite update_spec.
    destruct (session_opens env); [|done]. by destruct (store w !! i).
  - unfold serve, serve_with, bind. rewrite delete_spec.
    destruct (session_opens env); [|by left].
    destruct (store w !! i) as [r|] eqn:Hrow; [|by left].
    destruct (commit_succeeds env); [|by left].
    right. by exists i, r.
Qed.

(** X13. With main.py as it is, the table never gains or changes a row:
    after any sequence of requests the table is a part of the table the
    sequence began with, the registry is as it was, and every event the
    sequence added is the commit of a delete of a row the table had. *)
Theorem table_only_shrinks `{Library} requests w :
  let w' := serve_all ProcessedAgentDataInDB_init requests w in
  store w' ⊆ store w ∧
  subscriptions w' = subscriptions w ∧
  heap w' = heap w ∧
  ∃ events,
    trace w' = trace w ++ events ∧ Forall (is_removal (store w)) events.
Proof.
  cbv zeta. revert w.
  induction requests as [|[env req] requests IH]; intros w.
  - cbn. repeat split; [done..|]. exists []. by rewrite app_nil_r.
  - cbn [serve_all]. fold (serve env req w).
    destruct (IH (snd (serve env req w)))
      as (Hstore & Hsub & Hheap & events & Htrace & Hevents).
    destruct (serve_step env req w) as [Hsame|(k & r & Hrow & Hstep)].
    + rewrite Hsame in *. repeat split; [done..|]. by exists events.
    + rewrite Hstep in *. cbn [store subscriptions heap trace] in *.
      split; [|split; [done|split; [done|]]].
      * etrans; [exact Hstore|apply delete_subseteq].
      * exists (Committed [Remove r] :: events).
        split; [by rewrite Htrace, <- app_assoc|].
        constructor; [by exists k, r|].
        eapply Forall_impl; [exact Hevents|].
        intros e (k' & r' & Hrow' & ->). exists k', r'. split; [|done].
        eapply lookup_weaken; [exact Hrow'|apply delete_subseteq].
Qed.

(** Five requests on a table of two rows: the POST, the PUT and the gets
    change nothing, the DELETE takes row 1 away. *)
Example table_only_shrinks_run :
  store (serve_all (H:=basic_library)
           (ProcessedAgentDataInDB_init (H:=basic_library))
           [(env_ok, POST body42); (env_ok, PUT 2 body42); (env_ok, GET 1);
            (env_ok, DELETE 1); (env_ok, GET_all)] w_two_rows) =
  <[2 := record7]> ∅.
Proof. vm_compute. reflexivity. Qed.







(** ** An entry with no subscriber *)


